(** * Blaze.Var: a reactive variable on top of Deps

    A shallow embedding of [packages/blaze/var.js] and the properties of
    its constructor and of its [get], [set] and [toString] methods.

    JavaScript objects are kept in explicit heaps, one per kind of object,
    and every function of the source is a computation in a state and
    exception monad over the record of these heaps and of the globals of
    [Deps] and [Blaze].  User code (initializers, equality functions, the
    bodies of user computations) is a parameter of the development. *)

From Stdlib Require Import Floats.
From stdpp Require Import gmap strings list fin_maps.

Local Open Scope string_scope.

(** ** Values *)

Module JS.

(** Addresses of the objects of each kind. *)
Abbreviation FunId := nat.
Abbreviation Addr := nat.
Abbreviation VarRef := nat.
Abbreviation DepRef := nat.
Abbreviation CompId := nat.

(** A JavaScript value: the primitives by content, the objects by
    reference.  A number is an IEEE 754 double. *)
Inductive Value : Type :=
| VUndefined
| VNull
| VBoolean (b : bool)
| VNumber (x : float)
| VString (s : string)
| VFunction (f : FunId)
| VObject (a : Addr)
| VVar (l : VarRef)
| VComputation (c : CompId).

(** [typeof v === 'function'] *)
Definition is_function (v : Value) : bool :=
  match v with VFunction _ => true | _ => false end.

(** [ToBoolean]: the truthiness a conditional tests. *)
Definition ToBoolean (v : Value) : bool :=
  match v with
  | VUndefined | VNull => false
  | VBoolean b => b
  | VNumber x => negb (PrimFloat.is_zero x || PrimFloat.is_nan x)
  | VString s => negb (String.eqb s "")
  | VFunction _ | VObject _ | VVar _ | VComputation _ => true
  end.

(** [a === b]: no conversion; numbers compare as doubles do, so that
    [NaN] differs from itself and the two zeros are equal; objects are
    compared by reference. *)
Definition strict_equals (a b : Value) : bool :=
  match a, b with
  | VUndefined, VUndefined => true
  | VNull, VNull => true
  | VBoolean x, VBoolean y => Bool.eqb x y
  | VNumber x, VNumber y => PrimFloat.eqb x y
  | VString x, VString y => String.eqb x y
  | VFunction x, VFunction y => Nat.eqb x y
  | VObject x, VObject y => Nat.eqb x y
  | VVar x, VVar y => Nat.eqb x y
  | VComputation x, VComputation y => Nat.eqb x y
  | _, _ => false
  end.

(** What a [throw] carries: an [Error] object of the runtime, by the
    name of its constructor and its message, or any value of the
    program. *)
Inductive Thrown : Type :=
| ErrorObject (name message : string)
| ThrownValue (v : Value).

(** How the evaluation of a call ends. *)
Inductive Completion (A : Type) : Type :=
| Normal (a : A)
| Throw (e : Thrown).
Global Arguments Normal {A} a.
Global Arguments Throw {A} e.

End JS.
Import JS.

(** ** The heaps and the globals *)

(** A [Blaze.Var] object: the five fields the constructor assigns.  [dep]
    refers to the [Deps.Dependency] the object owns, [computation] is
    [None] for [null]. *)
Record VarObject : Type := mkVar {
  equalsFunc : Value;
  curValue : Value;
  inited : bool;
  dep : DepRef;
  computation : option CompId
}.

(** The function a computation runs.  The functions of the program are
    values; the one closure the constructor of [Blaze.Var] builds is kept
    with the three variables it captures. *)
Inductive Closure : Type :=
| UserFunction (f : Value)
| VarAutorun (self : VarRef) (initializer controller : Value).

(** A [Deps.Computation]: the computation that was current when it was
    created, and its function. *)
Record Computation : Type := mkComputation {
  parent : option CompId;
  func : Closure
}.

Record World : Type := mkWorld {
  vars : gmap nat VarObject;
  objects : gmap nat (gmap string Value);
  dependencies : gmap nat (gset nat);
  computations : gmap nat Computation;
  invalidated : gset nat;
  wrapped : gset nat;
  currentComputation : option CompId;
  currentController : Value
}.

Definition with_vars (f : gmap nat VarObject -> gmap nat VarObject) (w : World) : World :=
  mkWorld (f (vars w)) (objects w) (dependencies w) (computations w)
          (invalidated w) (wrapped w) (currentComputation w) (currentController w).

Definition with_dependencies (f : gmap nat (gset nat) -> gmap nat (gset nat)) (w : World) : World :=
  mkWorld (vars w) (objects w) (f (dependencies w)) (computations w)
          (invalidated w) (wrapped w) (currentComputation w) (currentController w).

Definition with_computations (f : gmap nat Computation -> gmap nat Computation) (w : World) : World :=
  mkWorld (vars w) (objects w) (dependencies w) (f (computations w))
          (invalidated w) (wrapped w) (currentComputation w) (currentController w).

Definition with_invalidated (f : gset nat -> gset nat) (w : World) : World :=
  mkWorld (vars w) (objects w) (dependencies w) (computations w)
          (f (invalidated w)) (wrapped w) (currentComputation w) (currentController w).

Definition with_wrapped (f : gset nat -> gset nat) (w : World) : World :=
  mkWorld (vars w) (objects w) (dependencies w) (computations w)
          (invalidated w) (f (wrapped w)) (currentComputation w) (currentController w).

Definition with_currentComputation (c : option CompId) (w : World) : World :=
  mkWorld (vars w) (objects w) (dependencies w) (computations w)
          (invalidated w) (wrapped w) c (currentController w).

Definition with_currentController (v : Value) (w : World) : World :=
  mkWorld (vars w) (objects w) (dependencies w) (computations w)
          (invalidated w) (wrapped w) (currentComputation w) v.

(** ** Computations with state and exceptions *)

Definition M (A : Type) : Type := World -> Completion A * World.

Definition ret {A} (a : A) : M A := fun w => (Normal a, w).

Definition throw {A} (e : Thrown) : M A := fun w => (Throw e, w).

Definition bind {A B} (m : M A) (k : A -> M B) : M B :=
  fun w =>
    match m w with
    | (Normal a, w') => k a w'
    | (Throw e, w') => (Throw e, w')
    end.

Declare Scope js_scope.
Delimit Scope js_scope with js.
Notation "x <- m ;; k" := (bind m (fun x => k))
  (at level 100, m at next level, right associativity) : js_scope.
Notation "m ;; k" := (bind m (fun _ => k))
  (at level 100, right associativity) : js_scope.
Local Open Scope js_scope.

Definition gets {A} (f : World -> A) : M A := fun w => (Normal (f w), w).

Definition modify (f : World -> World) : M unit := fun w => (Normal tt, f w).

(** [finally m f]: [try { m } finally { f }] for a state change [f]. *)
Definition finally {A} (m : M A) (f : World -> World) : M A :=
  fun w => let '(r, w') := m w in (r, f w').

(** Reading [this] as a [Blaze.Var]; a reference to no object does not
    arise in a program, and reads as the [TypeError] of a property access
    on [undefined]. *)
Definition read_var (self : VarRef) : M VarObject :=
  fun w =>
    match vars w !! self with
    | Some o => (Normal o, w)
    | None => (Throw (ErrorObject "TypeError" "Cannot read property of undefined"), w)
    end.

Definition write_var (self : VarRef) (o : VarObject) : M unit :=
  modify (with_vars <[self := o]>).

Definition update_var (self : VarRef) (f : VarObject -> VarObject) : M unit :=
  o <- read_var self ;; write_var self (f o).

Definition set_curValue (v : Value) (o : VarObject) : VarObject :=
  mkVar (equalsFunc o) v (inited o) (dep o) (computation o).

Definition set_inited (b : bool) (o : VarObject) : VarObject :=
  mkVar (equalsFunc o) (curValue o) b (dep o) (computation o).

Definition set_computation (c : option CompId) (o : VarObject) : VarObject :=
  mkVar (equalsFunc o) (curValue o) (inited o) (dep o) c.

(** ** The program *)

Section Program.

(** The functions of the program: [call f args] is the call of the
    function [f] of the program with the arguments [args], any change of
    the heaps and of the globals included. *)
Variable call : FunId -> list Value -> M Value.

(** The conversions of the language that [+] applies to its operand:
    the decimal form of a number, and for an object the string its own
    [valueOf] and [toString] give, which are code of the program. *)
Variable NumberToString : float -> string.
Variable ObjectToString : Value -> M string.

(** [f(args)] for a value [f]. *)
Definition Call (f : Value) (args : list Value) : M Value :=
  match f with
  | VFunction g => call g args
  | _ => throw (ErrorObject "TypeError" "not a function")
  end.

(** [ToString] *)
Definition ToString (v : Value) : M string :=
  match v with
  | VUndefined => ret "undefined"
  | VNull => ret "null"
  | VBoolean true => ret "true"
  | VBoolean false => ret "false"
  | VNumber x => ret (NumberToString x)
  | VString s => ret s
  | VFunction _ | VObject _ | VVar _ | VComputation _ => ObjectToString v
  end.

(** *** Deps *)

(** Modelled from the spec: [Deps.active] of the package [deps], the
    [isComputationActive] of the tracking engine. *)
Definition Deps_active : M bool :=
  gets (fun w => match currentComputation w with Some _ => true | None => false end).

(** Modelled from the spec: the constructor [Deps.Dependency] of the
    package [deps]: a registry of the computations that read a source,
    empty at first. *)
Definition new_Deps_Dependency : M DepRef :=
  d <- gets (fun w => fresh (dom (dependencies w))) ;;
  modify (with_dependencies <[d := ∅]>) ;;
  ret d.

(** The computations registered with the dependency [d]. *)
Definition dependents (d : DepRef) (w : World) : gset nat :=
  default ∅ (dependencies w !! d).

(** Modelled from the spec: [Deps.Dependency.prototype.depend] of the
    package [deps], the [registerDependency] of the tracking engine: the
    current computation joins the registry, once however often it
    registers; nothing happens when no computation is active. *)
Definition Dependency_depend (d : DepRef) : M unit :=
  current <- gets currentComputation ;;
  match current with
  | Some c => modify (fun w => with_dependencies <[d := {[c]} ∪ dependents d w]> w)
  | None => ret tt
  end.

(** Modelled from the spec: [Deps.Dependency.prototype.changed] of the
    package [deps], the [invalidateAll] of the tracking engine: every
    registered computation is invalidated; running them again is left to
    the flush of the engine. *)
Definition Dependency_changed (d : DepRef) : M unit :=
  modify (fun w => with_invalidated (fun s => dependents d w ∪ s) w).

(** *** Blaze *)

(** Modelled from the spec: [Blaze.withCurrentController] of the package
    [blaze], the [withAmbientContext] of the tracking engine: [func] runs
    with [controller] installed, and the previous controller is restored
    afterwards, however [func] ends. *)
Definition Blaze_withCurrentController {A} (controller : Value) (func : M A) : M A :=
  oldController <- gets currentController ;;
  finally (modify (with_currentController controller) ;; func)
          (with_currentController oldController).

(** Modelled from the spec: [Blaze._wrapAutorun] of the package [blaze]:
    the computation is marked as one a [Blaze.Var] owns. *)
Definition Blaze__wrapAutorun (c : CompId) : M unit :=
  modify (with_wrapped (fun s => {[c]} ∪ s)).

(** *** Blaze.Var.prototype *)

(** [Blaze.Var#get()], var.js lines 133-138. *)
Definition Var_get (this : VarRef) : M Value :=
  active <- Deps_active ;;
  (if active
   then o <- read_var this ;; Dependency_depend (dep o)
   else ret tt) ;;
  o <- read_var this ;;
  ret (curValue o).

(** The condition of the [if] of [set], lines 149-151: [this.inited]
    first, then the equality function when the field holds a truthy
    value, [===] otherwise. *)
Definition same_as_last_time (o : VarObject) (newValue : Value) : M bool :=
  let equals := equalsFunc o in
  let oldValue := curValue o in
  if inited o then
    if ToBoolean equals
    then r <- Call equals [newValue; oldValue] ;; ret (ToBoolean r)
    else ret (strict_equals newValue oldValue)
  else ret false.

(** [Blaze.Var#set(newValue)], var.js lines 145-158. *)
Definition Var_set (this : VarRef) (newValue : Value) : M unit :=
  o <- read_var this ;;
  same <- same_as_last_time o newValue ;;
  if same then
    (* value is same as last time *)
    ret tt
  else
    update_var this (set_curValue newValue) ;;
    o' <- read_var this ;;
    Dependency_changed (dep o').

(** [Blaze.Var#toString()], var.js lines 165-167. *)
Definition Var_toString (this : VarRef) : M Value :=
  v <- Var_get this ;;
  s <- ToString v ;;
  ret (VString ("Var{" ++ s ++ "}")).

(** *** Computations *)

(** The call [f(c)] of the function of the computation [c].  For the
    closure of the constructor this is var.js lines 114-118. *)
Definition apply_closure (f : Closure) (c : CompId) : M unit :=
  match f with
  | UserFunction g => Call g [VComputation c] ;; ret tt
  | VarAutorun self initializer controller =>
      Blaze_withCurrentController controller
        (v <- Call initializer [] ;; Var_set self v)
  end.

(** Modelled from the spec: one run of a computation by the package
    [deps]: its function is called with the computation as the current
    one, and the previous current computation is back afterwards. *)
Definition Deps_run (c : CompId) (k : Computation) : M unit :=
  outer <- gets currentComputation ;;
  finally (modify (with_currentComputation (Some c)) ;; apply_closure (func k) c)
          (with_currentComputation outer).

(** Modelled from the spec: [Deps.autorun] of the package [deps], the
    [runReactively] of the tracking engine: a new computation, nested
    under the current one, whose function is called once at once. *)
Definition Deps_autorun (f : Closure) : M CompId :=
  c <- gets (fun w => fresh (dom (computations w))) ;;
  outer <- gets currentComputation ;;
  let k := mkComputation outer f in
  modify (with_computations <[c := k]>) ;;
  Deps_run c k ;;
  ret c.

(** Modelled from the spec: the run the engine gives an invalidated
    computation at its flush. *)
Definition Deps_rerun (c : CompId) : M unit :=
  k <- gets (fun w => computations w !! c) ;;
  stale <- gets (fun w => bool_decide (c ∈ invalidated w)) ;;
  match k with
  | Some k =>
      if stale
      then modify (with_invalidated (fun s => s ∖ {[c]})) ;; Deps_run c k
      else ret tt
  | None => ret tt
  end.

(** *** Blaze.Var *)

(** The body of [Blaze.Var] for a [self] that is a [Blaze.Var], var.js
    lines 103-123.  The five assignments of lines 103-107 give [self]
    all its fields. *)
Definition Var_init (self : VarRef) (initializer equalsFunc : Value) : M unit :=
  d <- new_Deps_Dependency ;;
  write_var self (mkVar equalsFunc VNull false d None) ;;
  (if is_function initializer then
     active <- Deps_active ;;
     if negb active then
       throw (ErrorObject "Error"
                "Can only create a Blaze.Var(function...) inside a Computation")
     else
       controller <- gets currentController ;;
       c <- Deps_autorun (VarAutorun self initializer controller) ;;
       update_var self (set_computation (Some c)) ;;
       Blaze__wrapAutorun c
   else
     Var_set self initializer) ;;
  update_var self (set_inited true).

(** [new Blaze.Var(initializer, equalsFunc)]: a new object, which is a
    [Blaze.Var] by its prototype, is [this] in the call of the function,
    and is the value of the expression. *)
Definition new_Blaze_Var (initializer equalsFunc : Value) : M Value :=
  self <- gets (fun w => fresh (dom (vars w))) ;;
  Var_init self initializer equalsFunc ;;
  ret (VVar self).

(** [self instanceof Blaze.Var] *)
Definition instanceof_Blaze_Var (self : Value) (w : World) : option VarRef :=
  match self with
  | VVar l => if bool_decide (l ∈ dom (vars w)) then Some l else None
  | _ => None
  end.

(** The function [Blaze.Var], var.js lines 96-124, called with [this]. *)
Definition Blaze_Var (this : Value) (initializer equalsFunc : Value) : M Value :=
  is_var <- gets (instanceof_Blaze_Var this) ;;
  match is_var with
  | None =>
      (* called without `new` *)
      new_Blaze_Var initializer equalsFunc
  | Some self =>
      Var_init self initializer equalsFunc ;;
      ret VUndefined
  end.

End Program.

(** ** States of the constructor and of a run *)

(** The heaps when lines 103-107 have assigned the fields of the object
    at [self]: the object has no value and is not initialized, and owns a
    new dependency without readers. *)
Definition fields_assigned (self : VarRef) (equalsFunc : Value) (w : World) : World :=
  let d := fresh (dom (dependencies w)) in
  with_vars <[self := mkVar equalsFunc VNull false d None]>
    (with_dependencies <[d := ∅]> w).

(** The heaps when the constructor has returned a cell that holds [v]. *)
Definition constructed (self : VarRef) (equalsFunc v : Value)
    (c : option CompId) (w : World) : World :=
  let d := fresh (dom (dependencies w)) in
  with_vars <[self := mkVar equalsFunc v true d c]>
    (with_dependencies <[d := ∅]> w).

(** The heaps in which a run of the computation [c] under the controller
    [controller] calls its function. *)
Definition installed (c : CompId) (controller : Value) (w : World) : World :=
  with_currentController controller (with_currentComputation (Some c) w).

(** The heaps when such a run is over: the current computation and the
    controller of [w], where the run started, are back. *)
Definition restored (w : World) (w' : World) : World :=
  with_currentComputation (currentComputation w)
    (with_currentController (currentController w) w').

(** ** A sample program

    The functions, heaps and globals at which the properties below are
    evaluated. *)

(** [v.name] *)
Definition get_property (v : Value) (name : string) : M Value :=
  match v with
  | VUndefined | VNull =>
      throw (ErrorObject "TypeError" "Cannot read property of undefined")
  | VObject a => gets (fun w => default VUndefined (objects w !! a ≫= (.!! name)))
  | _ => ret VUndefined
  end.

(** The functions of the sample program:
    - 0 is [function (a, b) { return a.id === b.id; }];
    - 1 is [function () { return x.get(); }] for the [Blaze.Var] [x] at
      address 0;
    - 2 is [function (a, b) { throw "boom"; }];
    - 3 is [function () { x.get(); y.get(); }] for the [Blaze.Var]s [x]
      and [y] at the addresses 0 and 1;
    - any other is [function () {}]. *)
Definition sample_call (f : FunId) (args : list Value) : M Value :=
  match f, args with
  | 0, [a; b] =>
      x <- get_property a "id" ;;
      y <- get_property b "id" ;;
      ret (VBoolean (strict_equals x y))
  | 1, _ => Var_get 0
  | 2, _ => throw (ThrownValue (VString "boom"))
  | 3, _ => Var_get 0 ;; Var_get 1 ;; ret VUndefined
  | _, _ => ret VUndefined
  end.

(** The sample program formats no number and converts no object. *)
Definition sample_NumberToString (x : float) : string := "".
Definition sample_ObjectToString (v : Value) : M string := ret "[object Object]".

(** No object, no computation. *)
Definition empty_world : World :=
  mkWorld ∅ ∅ ∅ ∅ ∅ ∅ None VUndefined.

(** [new Blaze.Var(1)] in the empty world when it reaches line 121: the
    five fields are assigned and [self.set(initializer)] is about to be
    called. *)
Definition world_at_line_121 : World :=
  mkWorld {[0 := mkVar VUndefined VNull false 0 None]} ∅ {[0 := ∅]} ∅ ∅ ∅ None VUndefined.

(** A [Blaze.Var] that holds [v] and compares with [equals], read by the
    computation 5, which runs function 1 and is not running now. *)
Definition world_with_reader (v equals : Value) : World :=
  mkWorld {[0 := mkVar equals v true 0 None]}
          {[0 := {["id" := VNumber 1; "n" := VNumber 1]};
            1 := {["id" := VNumber 1; "n" := VNumber 2]};
            2 := {["id" := VNumber 2; "n" := VNumber 2]}]}
          {[0 := {[5]}]}
          {[5 := mkComputation None (UserFunction (VFunction 1))]}
          ∅ ∅ None VUndefined.

(** The same while the computation 5 is running, with the controller
    [controller] installed. *)
Definition world_inside_reader (v equals controller : Value) : World :=
  with_currentController controller
    (with_currentComputation (Some 5) (world_with_reader v equals)).

(** ** Properties of [get], [set] and [toString] *)

(** The definitions of the monad and of the accesses to the heaps unfold,
    the accesses first since they are written with the monad. *)
Ltac js_unfold :=
  unfold update_var in *;
  unfold write_var in *;
  unfold bind, ret, throw, gets, modify, finally, read_var in *.

Section SetProperties.

Variable call : FunId -> list Value -> M Value.

(** [set] when the value is the same as last time: nothing but the
    evaluation of the condition happens. *)
Lemma Var_set_same this o v w w1 :
  vars w !! this = Some o ->
  same_as_last_time call o v w = (Normal true, w1) ->
  Var_set call this v w = (Normal tt, w1).
Proof.
  intros Hthis Hsame. unfold Var_set. js_unfold.
  rewrite Hthis, Hsame. reflexivity.
Qed.

(** [set] when the value differs: lines 156-157 run on the heaps the
    evaluation of the condition left. *)
Lemma Var_set_differs this o v w w1 o1 :
  vars w !! this = Some o ->
  same_as_last_time call o v w = (Normal false, w1) ->
  vars w1 !! this = Some o1 ->
  Var_set call this v w =
    (Normal tt,
     with_invalidated (fun s => dependents (dep o1) w1 ∪ s)
       (with_vars <[this := set_curValue v o1]> w1)).
Proof.
  intros Hthis Hsame Hthis1. unfold Var_set, Dependency_changed. js_unfold.
  rewrite Hthis, Hsame. simpl. rewrite Hthis1. simpl.
  rewrite lookup_insert_eq. reflexivity.
Qed.

(** [set] when the evaluation of the condition throws. *)
Lemma Var_set_throws this o v w e w1 :
  vars w !! this = Some o ->
  same_as_last_time call o v w = (Throw e, w1) ->
  Var_set call this v w = (Throw e, w1).
Proof.
  intros Hthis Hsame. unfold Var_set. js_unfold.
  rewrite Hthis, Hsame. reflexivity.
Qed.

(** The condition under the default equality. *)
Lemma same_as_last_time_default o v w :
  inited o = true ->
  ToBoolean (equalsFunc o) = false ->
  same_as_last_time call o v w = (Normal (strict_equals v (curValue o)), w).
Proof. intros Hi He. unfold same_as_last_time. rewrite Hi, He. reflexivity. Qed.

(** The condition with an equality function. *)
Lemma same_as_last_time_custom o f v w :
  inited o = true ->
  equalsFunc o = VFunction f ->
  same_as_last_time call o v w =
    match call f [v; curValue o] w with
    | (Normal r, w1) => (Normal (ToBoolean r), w1)
    | (Throw e, w1) => (Throw e, w1)
    end.
Proof.
  intros Hi He. unfold same_as_last_time. rewrite Hi, He. simpl.
  js_unfold. destruct (call f [v; curValue o] w) as [[r|e] w1]; reflexivity.
Qed.

(** When [set] finds the value changed: the cell is not initialized; or
    it has no equality function and [newValue !== oldValue]; or its
    equality function returns a falsy value. *)
Lemma changed_cases o v w w1 :
  same_as_last_time call o v w = (Normal false, w1) <->
  (inited o = false /\ w1 = w) \/
  (inited o = true /\ ToBoolean (equalsFunc o) = false /\
   strict_equals v (curValue o) = false /\ w1 = w) \/
  (inited o = true /\ ToBoolean (equalsFunc o) = true /\
   exists r, Call call (equalsFunc o) [v; curValue o] w = (Normal r, w1) /\
             ToBoolean r = false).
Proof.
  unfold same_as_last_time.
  destruct (inited o), (ToBoolean (equalsFunc o)); js_unfold.
  - destruct (Call call (equalsFunc o) [v; curValue o] w) as [[r|e] w2]; split.
    + intros [= Hr ->]. right; right. eauto.
    + intros [[? _]|[(_ & ? & _)|(_ & _ & r' & [= -> ->] & ->)]];
        [ discriminate | discriminate | reflexivity ].
    + discriminate.
    + intros [[? _]|[(_ & ? & _)|(_ & _ & r' & ? & _)]]; discriminate.
  - split.
    + intros [= Hr ->]. right; left. auto.
    + intros [[? _]|[(_ & _ & -> & ->)|(_ & ? & _)]];
        [ discriminate | reflexivity | discriminate ].
  - split.
    + intros [= ->]. left. auto.
    + intros [[_ ->]|[(? & _)|(? & _)]]; [ reflexivity | discriminate | discriminate ].
  - split.
    + intros [= ->]. left. auto.
    + intros [[_ ->]|[(? & _)|(? & _)]]; [ reflexivity | discriminate | discriminate ].
Qed.

(** The condition before [inited] is set: no function is called. *)
Lemma same_as_last_time_uninitialized o v w :
  inited o = false ->
  same_as_last_time call o v w = (Normal false, w).
Proof. intros Hi. unfold same_as_last_time. rewrite Hi. reflexivity. Qed.

End SetProperties.

(** ** The claims about [set] *)

(** C1, as the code has it.  When [set(newValue)] finds the value changed,
    that is when the condition of lines 149-151 evaluates to false
    ([inited] is false, or the equality function returns a falsy value,
    or [newValue !== oldValue] without one), then after the call the
    stored value is [newValue], the field [inited] and the other fields
    are what they were, since [set] assigns [curValue] only, and every
    computation registered with the dependency of the cell is
    invalidated.  [w1] and [o1] are the heaps and the cell as the
    evaluation of the condition left them: [w] and [o] themselves unless
    an equality function with an effect was called; the lemma
    [changed_cases] spells the second hypothesis out. *)
Theorem set_changed_stores_and_invalidates
    (call : FunId -> list Value -> M Value) w this o v w1 o1 :
  vars w !! this = Some o ->
  same_as_last_time call o v w = (Normal false, w1) ->
  vars w1 !! this = Some o1 ->
  exists w2 o2,
    Var_set call this v w = (Normal tt, w2) /\
    vars w2 !! this = Some o2 /\
    curValue o2 = v /\
    inited o2 = inited o1 /\
    equalsFunc o2 = equalsFunc o1 /\
    dep o2 = dep o1 /\
    computation o2 = computation o1 /\
    dependents (dep o1) w1 ⊆ invalidated w2.
Proof.
  intros Hthis Hsame Hthis1.
  eexists _, (set_curValue v o1).
  split; [ exact (Var_set_differs call this o v w w1 o1 Hthis Hsame Hthis1) | ].
  split; [ simpl; apply lookup_insert_eq | ].
  repeat (split; [ reflexivity | ]).
  simpl. set_solver.
Qed.

Lemma set_changed_stores_and_invalidates_witness :
  exists w2 o2,
    Var_set sample_call 0 (VNumber 2) (world_with_reader (VNumber 1) VUndefined)
      = (Normal tt, w2) /\
    vars w2 !! 0 = Some o2 /\
    curValue o2 = VNumber 2 /\
    inited o2 = true /\
    equalsFunc o2 = VUndefined /\
    dep o2 = 0 /\
    computation o2 = None /\
    dependents 0 (world_with_reader (VNumber 1) VUndefined) ⊆ invalidated w2.
Proof.
  apply (set_changed_stores_and_invalidates sample_call
           (world_with_reader (VNumber 1) VUndefined) 0
           (mkVar VUndefined (VNumber 1) true 0 None) (VNumber 2)
           (world_with_reader (VNumber 1) VUndefined)
           (mkVar VUndefined (VNumber 1) true 0 None)); reflexivity.
Defined.

(** C1, as the claim has it, fails: the call [self.set(initializer)] that
    the constructor makes at line 121 of [new Blaze.Var(1)] finds the
    value changed and stores it, and [inited] is still false when [set]
    returns; the constructor sets it at line 123. *)
Lemma set_in_constructor_keeps_inited_false :
  (d <- new_Deps_Dependency ;; write_var 0 (mkVar VUndefined VNull false d None))
    empty_world = (Normal tt, world_at_line_121) /\
  same_as_last_time sample_call (mkVar VUndefined VNull false 0 None) (VNumber 1)
    world_at_line_121 = (Normal false, world_at_line_121) /\
  exists w2 o2,
    Var_set sample_call 0 (VNumber 1) world_at_line_121 = (Normal tt, w2) /\
    vars w2 !! 0 = Some o2 /\
    curValue o2 = VNumber 1 /\
    inited o2 = false.
Proof.
  split; [ vm_compute; reflexivity | ].
  split; [ reflexivity | ].
  eexists _, _. split; [ reflexivity | ].
  split; [ vm_compute; reflexivity | ].
  split; reflexivity.
Qed.

(** C2, as the code has it.  For an initialized cell (any cell whose
    constructor has returned) without an equality function, whose stored
    value is [x], and for [x] with [x === x] (any value but [NaN]), the
    call [set(x)] is a no-op: it returns with the heaps and the globals as
    they were, so that the stored value is the same [x] and no computation
    is invalidated. *)
Theorem set_same_value_is_noop
    (call : FunId -> list Value -> M Value) w this o x :
  vars w !! this = Some o ->
  inited o = true ->
  ToBoolean (equalsFunc o) = false ->
  curValue o = x ->
  strict_equals x x = true ->
  Var_set call this x w = (Normal tt, w) /\
  vars (snd (Var_set call this x w)) !! this = Some o /\
  invalidated (snd (Var_set call this x w)) = invalidated w.
Proof.
  intros Hthis Hi He Hx Hxx.
  assert (Var_set call this x w = (Normal tt, w)) as Hset.
  { apply (Var_set_same call this o x w w Hthis).
    rewrite (same_as_last_time_default call o x w Hi He), Hx, Hxx. reflexivity. }
  rewrite Hset. simpl. auto.
Qed.

Lemma set_same_value_is_noop_witness :
  let w := world_with_reader (VString "a") VUndefined in
  Var_set sample_call 0 (VString "a") w = (Normal tt, w) /\
  vars (snd (Var_set sample_call 0 (VString "a") w)) !! 0
    = Some (mkVar VUndefined (VString "a") true 0 None) /\
  invalidated (snd (Var_set sample_call 0 (VString "a") w)) = invalidated w.
Proof.
  apply (set_same_value_is_noop sample_call
           (world_with_reader (VString "a") VUndefined) 0
           (mkVar VUndefined (VString "a") true 0 None) (VString "a"));
    reflexivity.
Defined.

(** C2, as the claim has it, fails at [NaN], which [===] tells from
    itself.  A cell holds 1 and is read by the computation 5; [set(NaN)]
    stores [NaN] and invalidates the computation; the computation runs
    again and reads the cell; the second [set(NaN)] invalidates it
    again. *)
Lemma set_NaN_twice_invalidates_again :
  exists w1 w2 w3 o1,
    Var_set sample_call 0 (VNumber nan) (world_with_reader (VNumber 1) VUndefined)
      = (Normal tt, w1) /\
    vars w1 !! 0 = Some o1 /\
    curValue o1 = VNumber nan /\ inited o1 = true /\ equalsFunc o1 = VUndefined /\
    Deps_rerun sample_call 5 w1 = (Normal tt, w2) /\
    vars w2 !! 0 = Some o1 /\
    bool_decide (5 ∈ invalidated w2) = false /\
    Var_set sample_call 0 (VNumber nan) w2 = (Normal tt, w3) /\
    bool_decide (5 ∈ invalidated w3) = true.
Proof.
  eexists _, _, _, _.
  split; [ reflexivity | ].
  split; [ vm_compute; reflexivity | ].
  do 3 (split; [ reflexivity | ]).
  split; [ vm_compute; reflexivity | ].
  split; [ vm_compute; reflexivity | ].
  split; [ vm_compute; reflexivity | ].
  split; [ vm_compute; reflexivity | ].
  vm_compute; reflexivity.
Qed.

(** C3.  For an initialized cell with the equality function [f] and a
    call [set(v)] in which [f(v, oldValue)] returns [r]: when [r] is
    truthy, [set] returns and has done nothing of its own, so that no
    computation is invalidated and the stored value is left as it is;
    when [r] is falsy, [set] stores [v] and invalidates every computation
    registered with the dependency of the cell.  [w1] is what the call of
    [f] left: [w] itself for a function without effects, as the data model
    asks of an equality function. *)
Theorem set_custom_equality_gates
    (call : FunId -> list Value -> M Value) w this o f v r w1 :
  vars w !! this = Some o ->
  inited o = true ->
  equalsFunc o = VFunction f ->
  call f [v; curValue o] w = (Normal r, w1) ->
  if ToBoolean r
  then Var_set call this v w = (Normal tt, w1)
  else forall o1, vars w1 !! this = Some o1 ->
       exists w2,
         Var_set call this v w = (Normal tt, w2) /\
         vars w2 !! this = Some (set_curValue v o1) /\
         dependents (dep o1) w1 ⊆ invalidated w2.
Proof.
  intros Hthis Hi He Hcall.
  pose proof (same_as_last_time_custom call o f v w Hi He) as Hsame.
  rewrite Hcall in Hsame.
  destruct (ToBoolean r) eqn:Hr.
  - exact (Var_set_same call this o v w w1 Hthis Hsame).
  - intros o1 Hthis1. eexists.
    split; [ exact (Var_set_differs call this o v w w1 o1 Hthis Hsame Hthis1) | ].
    split; [ simpl; apply lookup_insert_eq | ].
    simpl. set_solver.
Qed.

(** The example of the claim: [equals(a, b) = (a.id === b.id)], the cell
    holds [{id: 1, n: 1}]; [set({id: 1, n: 2})] changes nothing, and
    [set({id: 2, n: 2})] stores the object and invalidates the reader. *)
Lemma set_custom_equality_gates_witness :
  let w := world_with_reader (VObject 0) (VFunction 0) in
  Var_set sample_call 0 (VObject 1) w = (Normal tt, w) /\
  exists w2,
    Var_set sample_call 0 (VObject 2) w = (Normal tt, w2) /\
    vars w2 !! 0 = Some (mkVar (VFunction 0) (VObject 2) true 0 None) /\
    dependents 0 w ⊆ invalidated w2.
Proof.
  split.
  - apply (set_custom_equality_gates sample_call
             (world_with_reader (VObject 0) (VFunction 0)) 0
             (mkVar (VFunction 0) (VObject 0) true 0 None) 0 (VObject 1)
             (VBoolean true)); reflexivity.
  - apply (set_custom_equality_gates sample_call
             (world_with_reader (VObject 0) (VFunction 0)) 0
             (mkVar (VFunction 0) (VObject 0) true 0 None) 0 (VObject 2)
             (VBoolean false)
             (world_with_reader (VObject 0) (VFunction 0))
             eq_refl eq_refl eq_refl eq_refl
             (mkVar (VFunction 0) (VObject 0) true 0 None)); reflexivity.
Defined.

(** C5.  For an initialized cell with the equality function [f] and a
    call [set(v)] in which [f(v, oldValue)] throws [e]: [set] ends with
    the same [e], and with the heaps exactly as the call of [f] left them,
    so that [set] has assigned nothing: a cell that [f] did not touch
    holds the value it held. *)
Theorem set_propagates_equality_exception
    (call : FunId -> list Value -> M Value) w this o f v e w1 :
  vars w !! this = Some o ->
  inited o = true ->
  equalsFunc o = VFunction f ->
  call f [v; curValue o] w = (Throw e, w1) ->
  Var_set call this v w = (Throw e, w1) /\
  (vars w1 !! this = Some o ->
   vars (snd (Var_set call this v w)) !! this = Some o) /\
  (invalidated w1 = invalidated w ->
   invalidated (snd (Var_set call this v w)) = invalidated w).
Proof.
  intros Hthis Hi He Hcall.
  pose proof (same_as_last_time_custom call o f v w Hi He) as Hsame.
  rewrite Hcall in Hsame.
  rewrite (Var_set_throws call this o v w e w1 Hthis Hsame). simpl. auto.
Qed.

Lemma set_propagates_equality_exception_witness :
  let w := world_with_reader (VNumber 1) (VFunction 2) in
  Var_set sample_call 0 (VNumber 2) w = (Throw (ThrownValue (VString "boom")), w) /\
  (vars w !! 0 = Some (mkVar (VFunction 2) (VNumber 1) true 0 None) ->
   vars (snd (Var_set sample_call 0 (VNumber 2) w)) !! 0
     = Some (mkVar (VFunction 2) (VNumber 1) true 0 None)) /\
  (invalidated w = invalidated w ->
   invalidated (snd (Var_set sample_call 0 (VNumber 2) w)) = invalidated w).
Proof.
  apply (set_propagates_equality_exception sample_call
           (world_with_reader (VNumber 1) (VFunction 2)) 0
           (mkVar (VFunction 2) (VNumber 1) true 0 None) 2 (VNumber 2));
    reflexivity.
Defined.

(** ** The claims about [get] and [toString] *)

(** [get] outside a computation reads the value and does nothing else. *)
Lemma Var_get_untracked w this o :
  vars w !! this = Some o ->
  currentComputation w = None ->
  Var_get this w = (Normal (curValue o), w).
Proof.
  intros Hthis Hc. unfold Var_get, Deps_active. js_unfold.
  rewrite Hc. simpl. rewrite Hthis. reflexivity.
Qed.

(** [get] inside the computation [c] registers [c] and reads the value. *)
Lemma Var_get_tracked w this o c :
  vars w !! this = Some o ->
  currentComputation w = Some c ->
  Var_get this w =
    (Normal (curValue o),
     with_dependencies <[dep o := {[c]} ∪ dependents (dep o) w]> w).
Proof.
  intros Hthis Hc. unfold Var_get, Deps_active, Dependency_depend. js_unfold.
  rewrite Hc. simpl. rewrite Hthis. simpl. rewrite Hc. simpl. rewrite Hthis.
  reflexivity.
Qed.

(** Registering the same computation once more changes nothing. *)
Lemma depend_twice d (c : nat) w :
  with_dependencies
    <[d := {[c]} ∪ dependents d (with_dependencies <[d := {[c]} ∪ dependents d w]> w)]>
    (with_dependencies <[d := {[c]} ∪ dependents d w]> w)
  = with_dependencies <[d := {[c]} ∪ dependents d w]> w.
Proof.
  destruct w as [vs os ds cs inv wr cur ctl].
  unfold with_dependencies, dependents. simpl.
  rewrite lookup_insert_eq. simpl.
  rewrite insert_insert_eq.
  rewrite (assoc_L (∪)), (idemp_L (∪)).
  reflexivity.
Qed.

(** C6.  On a cell, [get()] returns the stored value and does not throw.
    The cell keeps all its fields, and so does every other cell; the
    globals, the computations, the invalidated computations and the other
    dependencies are untouched.  The one effect is on the dependency of
    the cell: the current computation, if there is one, is now
    registered with it, and a second [get()] in the same run changes
    nothing any more. *)
Theorem get_returns_value_and_registers w this o :
  vars w !! this = Some o ->
  exists w1,
    Var_get this w = (Normal (curValue o), w1) /\
    vars w1 = vars w /\
    objects w1 = objects w /\
    computations w1 = computations w /\
    invalidated w1 = invalidated w /\
    wrapped w1 = wrapped w /\
    currentComputation w1 = currentComputation w /\
    currentController w1 = currentController w /\
    (forall d, d ≠ dep o -> dependencies w1 !! d = dependencies w !! d) /\
    dependents (dep o) w1 =
      match currentComputation w with
      | Some c => {[c]} ∪ dependents (dep o) w
      | None => dependents (dep o) w
      end /\
    (currentComputation w = None -> w1 = w) /\
    Var_get this w1 = (Normal (curValue o), w1).
Proof.
  intros Hthis. destruct (currentComputation w) as [c|] eqn:Hc.
  - exists (with_dependencies <[dep o := {[c]} ∪ dependents (dep o) w]> w).
    split; [ exact (Var_get_tracked w this o c Hthis Hc) | ].
    do 7 (split; [ first [ reflexivity | exact Hc ] | ]).
    split; [ intros d Hd; simpl; apply lookup_insert_ne; congruence | ].
    split; [ unfold dependents at 1; simpl; rewrite lookup_insert_eq; reflexivity | ].
    split; [ discriminate | ].
    rewrite (Var_get_tracked
               (with_dependencies <[dep o := {[c]} ∪ dependents (dep o) w]> w)
               this o c Hthis Hc).
    rewrite depend_twice. reflexivity.
  - exists w.
    split; [ exact (Var_get_untracked w this o Hthis Hc) | ].
    do 7 (split; [ first [ reflexivity | exact Hc ] | ]).
    split; [ reflexivity | ].
    split; [ reflexivity | ].
    split; [ reflexivity | ].
    exact (Var_get_untracked w this o Hthis Hc).
Qed.

(** Inside the computation 5 the first [get()] registers the computation
    with the dependency of the cell, which had no reader. *)
Lemma get_returns_value_and_registers_witness :
  let w := with_dependencies <[0 := ∅]>
             (world_inside_reader (VNumber 1) VUndefined VNull) in
  exists w1,
    Var_get 0 w = (Normal (VNumber 1), w1) /\
    vars w1 = vars w /\
    objects w1 = objects w /\
    computations w1 = computations w /\
    invalidated w1 = invalidated w /\
    wrapped w1 = wrapped w /\
    currentComputation w1 = Some 5 /\
    currentController w1 = VNull /\
    (forall d, d ≠ 0 -> dependencies w1 !! d = dependencies w !! d) /\
    dependents 0 w1 = {[5]} ∪ dependents 0 w /\
    (Some 5 = None -> w1 = w) /\
    Var_get 0 w1 = (Normal (VNumber 1), w1).
Proof.
  apply (get_returns_value_and_registers
           (with_dependencies <[0 := ∅]>
              (world_inside_reader (VNumber 1) VUndefined VNull))
           0 (mkVar VUndefined (VNumber 1) true 0 None)).
  reflexivity.
Defined.

(** C9.  On a cell whose value has the string form [s], [toString()]
    returns ['Var{' + s + '}'].  The value is read by [get()], so that
    the conversion starts from the heaps [w1] that [get()] left, in which
    the current computation, if there is one, is registered with the
    dependency of the cell. *)
Theorem toString_wraps_value_of_tracked_get
    (NumberToString : float -> string) (ObjectToString : Value -> M string)
    w this o s w2 :
  vars w !! this = Some o ->
  ToString NumberToString ObjectToString (curValue o) (snd (Var_get this w))
    = (Normal s, w2) ->
  Var_get this w = (Normal (curValue o), snd (Var_get this w)) /\
  Var_toString NumberToString ObjectToString this w
    = (Normal (VString ("Var{" ++ s ++ "}")), w2) /\
  (forall c, currentComputation w = Some c ->
             c ∈ dependents (dep o) (snd (Var_get this w))).
Proof.
  intros Hthis Hs.
  destruct (get_returns_value_and_registers w this o Hthis)
    as (w1 & Hget & _ & _ & _ & _ & _ & _ & _ & _ & Hdep & _).
  rewrite Hget in *. simpl in *.
  split; [ reflexivity | ].
  split.
  - unfold Var_toString. js_unfold. rewrite Hget, Hs. reflexivity.
  - intros c Hc. rewrite Hdep, Hc. apply elem_of_union_l, elem_of_singleton. reflexivity.
Qed.

Lemma toString_wraps_value_of_tracked_get_witness :
  let w := with_dependencies <[0 := ∅]>
             (world_inside_reader (VString "a") VUndefined VNull) in
  Var_get 0 w = (Normal (VString "a"), snd (Var_get 0 w)) /\
  Var_toString sample_NumberToString sample_ObjectToString 0 w
    = (Normal (VString "Var{a}"), snd (Var_get 0 w)) /\
  (forall c, Some 5 = Some c -> c ∈ dependents 0 (snd (Var_get 0 w))).
Proof.
  apply (toString_wraps_value_of_tracked_get
           sample_NumberToString sample_ObjectToString
           (with_dependencies <[0 := ∅]>
              (world_inside_reader (VString "a") VUndefined VNull))
           0 (mkVar VUndefined (VString "a") true 0 None) "a");
    reflexivity.
Defined.

(** ** The claims about the constructor *)

Section Constructor.

Variable call : FunId -> list Value -> M Value.

(** Lines 103-107. *)
Lemma Var_init_assigns_fields self initializer equalsFunc w :
  Var_init call self initializer equalsFunc w =
    ((if is_function initializer then
        active <- Deps_active ;;
        if negb active then
          throw (ErrorObject "Error"
                   "Can only create a Blaze.Var(function...) inside a Computation")
        else
          controller <- gets currentController ;;
          c <- Deps_autorun call (VarAutorun self initializer controller) ;;
          update_var self (set_computation (Some c)) ;;
          Blaze__wrapAutorun c
      else
        Var_set call self initializer) ;;
     update_var self (set_inited true))%js
      (fields_assigned self equalsFunc w).
Proof. reflexivity. Qed.

(** The constructor on a value that is not a function. *)
Lemma Var_init_of_value self v0 equalsFunc w :
  is_function v0 = false ->
  Var_init call self v0 equalsFunc w
    = (Normal tt, constructed self equalsFunc v0 None w).
Proof.
  intros Hv. rewrite Var_init_assigns_fields, Hv.
  unfold Var_set, same_as_last_time, Dependency_changed, fields_assigned, constructed.
  js_unfold. simpl. rewrite lookup_insert_eq. simpl.
  rewrite lookup_insert_eq. simpl. rewrite lookup_insert_eq. simpl.
  unfold dependents. simpl. rewrite lookup_insert_eq. simpl.
  f_equal.
  destruct w. unfold with_vars, with_dependencies, with_invalidated. simpl.
  rewrite !insert_insert_eq, lookup_insert_eq. simpl.
  rewrite (left_id_L ∅ (∪)). reflexivity.
Qed.

(** The constructor on a function outside any computation. *)
Lemma Var_init_of_function_outside self f equalsFunc w :
  currentComputation w = None ->
  Var_init call self (VFunction f) equalsFunc w
    = (Throw (ErrorObject "Error"
                "Can only create a Blaze.Var(function...) inside a Computation"),
       fields_assigned self equalsFunc w).
Proof.
  intros Hc. rewrite Var_init_assigns_fields. simpl.
  unfold Deps_active. js_unfold. simpl. rewrite Hc. reflexivity.
Qed.

End Constructor.

(** C8.  [new Blaze.Var(v0, equalsFunc)] for a [v0] that is not a function
    returns a new cell and does not throw, whatever the functions of the
    program are: no function is called, the equality function least of
    all.  The cell holds [v0], is initialized, has no computation and owns
    a new dependency without readers; nothing else has changed, and no
    computation is invalidated.  A [set(v0)] that follows, without an
    equality function and with [v0 === v0], is a no-op. *)
Theorem new_Var_of_value_stores_it
    (call : FunId -> list Value -> M Value) v0 equalsFunc w :
  is_function v0 = false ->
  let self := fresh (dom (vars w)) in
  let w1 := constructed self equalsFunc v0 None w in
  new_Blaze_Var call v0 equalsFunc w = (Normal (VVar self), w1) /\
  vars w1 !! self
    = Some (mkVar equalsFunc v0 true (fresh (dom (dependencies w))) None) /\
  dependents (fresh (dom (dependencies w))) w1 = ∅ /\
  invalidated w1 = invalidated w /\
  (ToBoolean equalsFunc = false -> strict_equals v0 v0 = true ->
   Var_set call self v0 w1 = (Normal tt, w1)).
Proof.
  intros Hv self w1.
  split.
  { unfold new_Blaze_Var. js_unfold. simpl.
    rewrite (Var_init_of_value call _ v0 equalsFunc w Hv). reflexivity. }
  assert (vars w1 !! self
          = Some (mkVar equalsFunc v0 true (fresh (dom (dependencies w))) None))
    as Hself by (simpl; apply lookup_insert_eq).
  split; [ exact Hself | ].
  split; [ unfold dependents; simpl; rewrite lookup_insert_eq; reflexivity | ].
  split; [ reflexivity | ].
  intros He Hvv.
  apply (Var_set_same call self _ v0 w1 w1 Hself).
  rewrite same_as_last_time_default by (reflexivity || exact He). simpl.
  rewrite Hvv. reflexivity.
Qed.

Lemma new_Var_of_value_stores_it_witness :
  let w1 := constructed 0 VUndefined (VNumber 1) None empty_world in
  new_Blaze_Var sample_call (VNumber 1) VUndefined empty_world
    = (Normal (VVar 0), w1) /\
  vars w1 !! 0 = Some (mkVar VUndefined (VNumber 1) true 0 None) /\
  dependents 0 w1 = ∅ /\
  invalidated w1 = ∅ /\
  (ToBoolean VUndefined = false ->
   strict_equals (VNumber 1) (VNumber 1) = true ->
   Var_set sample_call 0 (VNumber 1) w1 = (Normal tt, w1)).
Proof.
  apply (new_Var_of_value_stores_it sample_call (VNumber 1) VUndefined empty_world).
  reflexivity.
Defined.

(** C4.  [new Blaze.Var(f, equalsFunc)] for a function [f] while no
    computation is current throws the [Error] of line 111, whatever the
    functions of the program are: [f] is not called.  No computation is
    created, invalidated or marked, the globals are as before, and so is
    every cell and every dependency there was.  What is thrown is the
    [Error] and no reference to the object under construction, which
    lines 103-107 had given its fields and which nothing refers to. *)
Theorem new_Var_of_function_needs_computation
    (call : FunId -> list Value -> M Value) f equalsFunc w :
  currentComputation w = None ->
  exists w1,
    new_Blaze_Var call (VFunction f) equalsFunc w
      = (Throw (ErrorObject "Error"
                  "Can only create a Blaze.Var(function...) inside a Computation"),
         w1) /\
    computations w1 = computations w /\
    invalidated w1 = invalidated w /\
    wrapped w1 = wrapped w /\
    currentComputation w1 = currentComputation w /\
    currentController w1 = currentController w /\
    objects w1 = objects w /\
    (forall l, l ∈ dom (vars w) -> vars w1 !! l = vars w !! l) /\
    (forall d, d ∈ dom (dependencies w) -> dependencies w1 !! d = dependencies w !! d).
Proof.
  intros Hc.
  exists (fields_assigned (fresh (dom (vars w))) equalsFunc w).
  split.
  { unfold new_Blaze_Var. js_unfold. simpl.
    rewrite (Var_init_of_function_outside call _ f equalsFunc w Hc). reflexivity. }
  do 6 (split; [ reflexivity | ]).
  split.
  - intros l Hl. simpl. apply lookup_insert_ne.
    intros <-. exact (is_fresh (dom (vars w)) Hl).
  - intros d Hd. simpl. apply lookup_insert_ne.
    intros <-. exact (is_fresh (dom (dependencies w)) Hd).
Qed.

Lemma new_Var_of_function_needs_computation_witness :
  let w := world_with_reader (VNumber 1) VUndefined in
  exists w1,
    new_Blaze_Var sample_call (VFunction 1) VUndefined w
      = (Throw (ErrorObject "Error"
                  "Can only create a Blaze.Var(function...) inside a Computation"),
         w1) /\
    computations w1 = computations w /\
    invalidated w1 = invalidated w /\
    wrapped w1 = wrapped w /\
    currentComputation w1 = currentComputation w /\
    currentController w1 = currentController w /\
    objects w1 = objects w /\
    (forall l, l ∈ dom (vars w) -> vars w1 !! l = vars w !! l) /\
    (forall d, d ∈ dom (dependencies w) -> dependencies w1 !! d = dependencies w !! d).
Proof.
  apply (new_Var_of_function_needs_computation sample_call 1 VUndefined
           (world_with_reader (VNumber 1) VUndefined)).
  reflexivity.
Defined.

(** C10.  Called with a [this] that is not a [Blaze.Var], as in a call
    without [new], the function [Blaze.Var] does what
    [new Blaze.Var(initializer, equalsFunc)] does: it returns the same
    cell, throws the same, and leaves the same heaps and globals. *)
Theorem Var_without_new_is_new
    (call : FunId -> list Value -> M Value) this initializer equalsFunc w :
  instanceof_Blaze_Var this w = None ->
  Blaze_Var call this initializer equalsFunc w
    = new_Blaze_Var call initializer equalsFunc w.
Proof.
  intros Hthis. unfold Blaze_Var. js_unfold. rewrite Hthis. reflexivity.
Qed.

Lemma Var_without_new_is_new_witness :
  Blaze_Var sample_call VUndefined (VNumber 1) VUndefined empty_world
    = new_Blaze_Var sample_call (VNumber 1) VUndefined empty_world.
Proof.
  apply (Var_without_new_is_new sample_call VUndefined (VNumber 1) VUndefined
           empty_world).
  reflexivity.
Defined.

(** One run of the computation of a cell, lines 114-118. *)
Lemma Deps_run_VarAutorun
    (call : FunId -> list Value -> M Value) c p self initializer controller w :
  Deps_run call c (mkComputation p (VarAutorun self initializer controller)) w =
    match Call call initializer [] (installed c controller w) with
    | (Normal v, w2) =>
        let '(r, w3) := Var_set call self v w2 in (r, restored w w3)
    | (Throw e, w2) => (Throw e, restored w w2)
    end.
Proof.
  unfold Deps_run, apply_closure, Blaze_withCurrentController, installed, restored.
  js_unfold. simpl.
  destruct (Call call initializer [] _) as [[v|e] w2]; [ | reflexivity ].
  destruct (Var_set call self v w2) as [r w3]. reflexivity.
Qed.

(** C7.  [new Blaze.Var(f, equalsFunc)] for a function [f] while the
    computation [p] is current reads the current controller and creates
    the computation [c], whose parent is [p] and whose function is the
    closure of lines 114-118 over the new cell, [f] and that controller;
    the first run of [c] takes place at once, and the constructor then
    stores [c] in the cell, wraps it and marks the cell initialized.
    Every run of [c], the first one as any later one from any heaps [wr],
    calls [f()] with [c] as the current computation and the controller of
    the construction installed, gives the result to [set], and ends with
    the current computation and the controller of [wr] back, also when
    [f] throws.  The run the engine gives [c] once it is invalidated is
    such a run. *)
Theorem new_Var_of_function_autoruns
    (call : FunId -> list Value -> M Value) f equalsFunc w p :
  currentComputation w = Some p ->
  let self := fresh (dom (vars w)) in
  let c := fresh (dom (computations w)) in
  let controller := currentController w in
  let k := mkComputation (Some p) (VarAutorun self (VFunction f) controller) in
  new_Blaze_Var call (VFunction f) equalsFunc w =
    (Deps_run call c k ;;
     update_var self (set_computation (Some c)) ;;
     Blaze__wrapAutorun c ;;
     update_var self (set_inited true) ;;
     ret (VVar self))%js
      (with_computations <[c := k]> (fields_assigned self equalsFunc w)) /\
  (forall wr,
     currentComputation (installed c controller wr) = Some c /\
     currentController (installed c controller wr) = currentController w /\
     Deps_run call c k wr =
       match call f [] (installed c controller wr) with
       | (Normal v, w2) =>
           let '(r, w3) := Var_set call self v w2 in (r, restored wr w3)
       | (Throw e, w2) => (Throw e, restored wr w2)
       end) /\
  (forall wr,
     computations wr !! c = Some k ->
     c ∈ invalidated wr ->
     Deps_rerun call c wr
       = Deps_run call c k (with_invalidated (fun s => s ∖ {[c]}) wr)).
Proof.
  intros Hp self c controller k.
  split; [ | split ].
  - unfold new_Blaze_Var. js_unfold. simpl.
    fold self. rewrite Var_init_assigns_fields. simpl.
    unfold Deps_active, Deps_autorun. js_unfold. simpl. rewrite !Hp. simpl.
    rewrite ?Hp. fold c. fold controller. fold k.
    destruct (Deps_run call c k _) as [[[]|e] w2]; [ | reflexivity ].
    destruct (vars w2 !! self) as [o|]; [ | reflexivity ].
    simpl. rewrite lookup_insert_eq. reflexivity.
  - intros wr. split; [ reflexivity | ]. split; [ reflexivity | ].
    exact (Deps_run_VarAutorun call c (Some p) self (VFunction f) controller wr).
  - intros wr Hk Hstale. unfold Deps_rerun. js_unfold. simpl.
    rewrite Hk, (bool_decide_eq_true_2 _ Hstale). simpl.
    destruct (Deps_run call c k _) as [[[]|e] w2]; reflexivity.
Qed.

(** Inside the computation 5 and under the controller ["ctl"], the cell
    made from function 1 is the object 1 and its computation is 6. *)
Lemma new_Var_of_function_autoruns_witness :
  let w := world_inside_reader (VNumber 1) VUndefined (VString "ctl") in
  let k := mkComputation (Some 5) (VarAutorun 1 (VFunction 1) (VString "ctl")) in
  new_Blaze_Var sample_call (VFunction 1) VUndefined w =
    (Deps_run sample_call 6 k ;;
     update_var 1 (set_computation (Some 6)) ;;
     Blaze__wrapAutorun 6 ;;
     update_var 1 (set_inited true) ;;
     ret (VVar 1))%js
      (with_computations <[6 := k]> (fields_assigned 1 VUndefined w)) /\
  (forall wr,
     currentComputation (installed 6 (VString "ctl") wr) = Some 6 /\
     currentController (installed 6 (VString "ctl") wr) = VString "ctl" /\
     Deps_run sample_call 6 k wr =
       match sample_call 1 [] (installed 6 (VString "ctl") wr) with
       | (Normal v, w2) =>
           let '(r, w3) := Var_set sample_call 1 v w2 in (r, restored wr w3)
       | (Throw e, w2) => (Throw e, restored wr w2)
       end) /\
  (forall wr,
     computations wr !! 6 = Some k ->
     6 ∈ invalidated wr ->
     Deps_rerun sample_call 6 wr
       = Deps_run sample_call 6 k (with_invalidated (fun s => s ∖ {[6]}) wr)).
Proof.
  apply (new_Var_of_function_autoruns sample_call 1 VUndefined
           (world_inside_reader (VNumber 1) VUndefined (VString "ctl")) 5).
  reflexivity.
Defined.

(** The same construction, evaluated: the new cell holds the 1 that
    function 1 read from the cell 0, is initialized and owns the
    computation 6, nested under 5, wrapped, and now a reader of the cell
    0; the computation 5 and the controller ["ctl"] are current again. *)
Example new_Var_of_function_evaluated :
  let w := world_inside_reader (VNumber 1) VUndefined (VString "ctl") in
  exists w1,
    new_Blaze_Var sample_call (VFunction 1) VUndefined w = (Normal (VVar 1), w1) /\
    vars w1 !! 1 = Some (mkVar VUndefined (VNumber 1) true 1 (Some 6)) /\
    computations w1 !! 6
      = Some (mkComputation (Some 5) (VarAutorun 1 (VFunction 1) (VString "ctl"))) /\
    dependents 0 w1 = {[5; 6]} /\
    wrapped w1 = {[6]} /\
    currentComputation w1 = Some 5 /\
    currentController w1 = VString "ctl".
Proof.
  eexists. split; [ vm_compute; reflexivity | ].
  repeat split; vm_compute; reflexivity.
Qed.

(** ** The example of the documentation

    [var a = Blaze.Var(1); var b = Blaze.Var(1);], then an autorun that
    reads both, var.js lines 39-52. *)

Definition two_vars_and_a_reader : M CompId :=
  (Blaze_Var sample_call VUndefined (VNumber 1) VUndefined ;;
   Blaze_Var sample_call VUndefined (VNumber 1) VUndefined ;;
   Deps_autorun sample_call (UserFunction (VFunction 3)))%js.

(** The autorun is the computation 0 and reads both cells; [b.set(2)]
    invalidates it; after its next run [a.set(10)] and [b.set(10)]
    together leave it invalidated, once; and a [b.set(10)] more changes
    nothing. *)
Example documented_example :
  exists w1 w2 w3 w4,
    two_vars_and_a_reader empty_world = (Normal 0, w1) /\
    dependents 0 w1 = {[0]} /\ dependents 1 w1 = {[0]} /\
    invalidated w1 = ∅ /\
    Var_set sample_call 1 (VNumber 2) w1 = (Normal tt, w2) /\
    invalidated w2 = {[0]} /\
    Deps_rerun sample_call 0 w2 = (Normal tt, w3) /\
    invalidated w3 = ∅ /\
    (Var_set sample_call 0 (VNumber 10) ;; Var_set sample_call 1 (VNumber 10))%js w3
      = (Normal tt, w4) /\
    invalidated w4 = {[0]} /\
    Var_set sample_call 1 (VNumber 10) w4 = (Normal tt, w4).
Proof.
  eexists _, _, _, _.
  do 10 (split; [ vm_compute; reflexivity | ]).
  vm_compute; reflexivity.
Qed.

(** ** Further properties of [set] and [get] *)

(** What [set] returns and leaves, by the outcome [b] of its condition. *)
Lemma Var_set_outcome (call : FunId -> list Value -> M Value) this o v w b w1 o1 :
  vars w !! this = Some o ->
  same_as_last_time call o v w = (Normal b, w1) ->
  vars w1 !! this = Some o1 ->
  Var_set call this v w =
    (Normal tt,
     if b then w1
     else with_invalidated (fun s => dependents (dep o1) w1 ∪ s)
            (with_vars <[this := set_curValue v o1]> w1)).
Proof.
  intros Hthis Hsame Hthis1. destruct b.
  - exact (Var_set_same call this o v w w1 Hthis Hsame).
  - exact (Var_set_differs call this o v w w1 o1 Hthis Hsame Hthis1).
Qed.

(** The condition of [set] without an equality function calls nothing. *)
Lemma same_as_last_time_without_equals
    (call : FunId -> list Value -> M Value) o v w :
  ToBoolean (equalsFunc o) = false ->
  same_as_last_time call o v w
    = (Normal (inited o && strict_equals v (curValue o)), w).
Proof.
  intros He. unfold same_as_last_time. rewrite He.
  destruct (inited o); reflexivity.
Qed.



(** X2.  [set] withdraws no invalidation, and the computations it
    invalidates are readers of its own cell: a computation that is not
    registered with the dependency of the cell and was not invalidated
    before is not invalidated after. *)
Theorem set_invalidates_readers_only
    (call : FunId -> list Value -> M Value) this o v w b w1 o1 :
  vars w !! this = Some o ->
  same_as_last_time call o v w = (Normal b, w1) ->
  vars w1 !! this = Some o1 ->
  invalidated w1 ⊆ invalidated (snd (Var_set call this v w)) /\
  (forall c, c ∉ dependents (dep o1) w1 -> c ∉ invalidated w1 ->
             c ∉ invalidated (snd (Var_set call this v w))).
Proof.
  intros Hthis Hsame Hthis1.
  rewrite (Var_set_outcome call this o v w b w1 o1 Hthis Hsame Hthis1).
  destruct b; simpl.
  - split; [ reflexivity | auto ].
  - split; [ apply union_subseteq_r | ].
    intros c Hdep Hinv [?|?]%elem_of_union; contradiction.
Qed.

(** The computation 7 never read the cell: [set(2)] invalidates the
    reader 5 and leaves 7 alone. *)
Lemma set_invalidates_readers_only_witness :
  let w := world_with_reader (VNumber 1) VUndefined in
  invalidated w ⊆ invalidated (snd (Var_set sample_call 0 (VNumber 2) w)) /\
  (forall c, c ∉ dependents 0 w -> c ∉ invalidated w ->
             c ∉ invalidated (snd (Var_set sample_call 0 (VNumber 2) w))).
Proof.
  apply (set_invalidates_readers_only sample_call 0
           (mkVar VUndefined (VNumber 1) true 0 None) (VNumber 2)
           (world_with_reader (VNumber 1) VUndefined) false
           (world_with_reader (VNumber 1) VUndefined)
           (mkVar VUndefined (VNumber 1) true 0 None)); reflexivity.
Defined.

(** X3.  The contract of a data source, lines 17-21: a computation that
    calls [get()] on an initialized cell without an equality function is
    invalidated by a [set(v)] that follows with [v !== ] the stored
    value. *)
Theorem get_then_set_invalidates_the_reader
    (call : FunId -> list Value -> M Value) this o v w c :
  vars w !! this = Some o ->
  currentComputation w = Some c ->
  inited o = true ->
  ToBoolean (equalsFunc o) = false ->
  strict_equals v (curValue o) = false ->
  exists w1 w2,
    Var_get this w = (Normal (curValue o), w1) /\
    Var_set call this v w1 = (Normal tt, w2) /\
    c ∈ invalidated w2.
Proof.
  intros Hthis Hc Hi He Hv.
  set (w1 := with_dependencies <[dep o := {[c]} ∪ dependents (dep o) w]> w).
  exists w1. eexists.
  split; [ exact (Var_get_tracked w this o c Hthis Hc) | ].
  split.
  - apply (Var_set_differs call this o v w1 w1 o); [ exact Hthis | | exact Hthis ].
    rewrite (same_as_last_time_default call o v w1 Hi He), Hv. reflexivity.
  - simpl. apply elem_of_union_l. unfold dependents. simpl.
    rewrite lookup_insert_eq. simpl.
    apply elem_of_union_l, elem_of_singleton. reflexivity.
Qed.

Lemma get_then_set_invalidates_the_reader_witness :
  let w := with_dependencies <[0 := ∅]>
             (world_inside_reader (VNumber 1) VUndefined VNull) in
  exists w1 w2,
    Var_get 0 w = (Normal (VNumber 1), w1) /\
    Var_set sample_call 0 (VNumber 2) w1 = (Normal tt, w2) /\
    5 ∈ invalidated w2.
Proof.
  apply (get_then_set_invalidates_the_reader sample_call 0
           (mkVar VUndefined (VNumber 1) true 0 None) (VNumber 2)
           (with_dependencies <[0 := ∅]>
              (world_inside_reader (VNumber 1) VUndefined VNull)) 5);
    reflexivity.
Defined.

(** X4.  Without an equality function, [set(v)] does not throw, and the
    [get()] that follows returns [v] itself, or else the value the cell
    held, which then is [===] to [v]. *)
Theorem set_then_get_returns_the_value
    (call : FunId -> list Value -> M Value) this o v w :
  vars w !! this = Some o ->
  ToBoolean (equalsFunc o) = false ->
  exists w2 r w3,
    Var_set call this v w = (Normal tt, w2) /\
    Var_get this w2 = (Normal r, w3) /\
    (r = v \/ (r = curValue o /\ strict_equals v r = true)).
Proof.
  intros Hthis He.
  pose proof (same_as_last_time_without_equals call o v w He) as Hsame.
  rewrite (Var_set_outcome call this o v w _ w o Hthis Hsame Hthis).
  destruct (inited o && strict_equals v (curValue o)) eqn:Hb.
  - apply andb_true_iff in Hb as [_ Hv].
    destruct (currentComputation w) as [c|] eqn:Hc.
    + eexists _, _, _. split; [ reflexivity | ].
      split; [ exact (Var_get_tracked w this o c Hthis Hc) | ]. auto.
    + eexists _, _, _. split; [ reflexivity | ].
      split; [ exact (Var_get_untracked w this o Hthis Hc) | ]. auto.
  - set (w2 := with_invalidated _ _).
    assert (vars w2 !! this = Some (set_curValue v o)) as Hthis2
      by (simpl; apply lookup_insert_eq).
    destruct (currentComputation w2) as [c|] eqn:Hc.
    + eexists _, _, _. split; [ reflexivity | ].
      split; [ exact (Var_get_tracked w2 this _ c Hthis2 Hc) | ]. left. reflexivity.
    + eexists _, _, _. split; [ reflexivity | ].
      split; [ exact (Var_get_untracked w2 this _ Hthis2 Hc) | ]. left. reflexivity.
Qed.

(** The cell holds [0]; after [set(-0)] it still holds [0], which is
    [===] to [-0]. *)
Lemma set_then_get_returns_the_value_witness :
  let w := world_with_reader (VNumber 0) VUndefined in
  exists w2 r w3,
    Var_set sample_call 0 (VNumber (-0)) w = (Normal tt, w2) /\
    Var_get 0 w2 = (Normal r, w3) /\
    (r = VNumber (-0) \/ (r = VNumber 0 /\ strict_equals (VNumber (-0)) r = true)).
Proof.
  apply (set_then_get_returns_the_value sample_call 0
           (mkVar VUndefined (VNumber 0) true 0 None) (VNumber (-0))
           (world_with_reader (VNumber 0) VUndefined)); reflexivity.
Defined.

(** X5.  On an initialized cell without an equality function, [set(v)]
    twice in a row is [set(v)] once, for any [v] with [v === v]: the
    second call returns with the heaps as the first left them. *)
Theorem set_twice_is_set_once
    (call : FunId -> list Value -> M Value) this o v w :
  vars w !! this = Some o ->
  inited o = true ->
  ToBoolean (equalsFunc o) = false ->
  strict_equals v v = true ->
  exists w1,
    Var_set call this v w = (Normal tt, w1) /\
    Var_set call this v w1 = (Normal tt, w1).
Proof.
  intros Hthis Hi He Hvv.
  pose proof (same_as_last_time_default call o v w Hi He) as Hsame.
  rewrite (Var_set_outcome call this o v w _ w o Hthis Hsame Hthis).
  destruct (strict_equals v (curValue o)) eqn:Hv.
  - exists w. split; [ reflexivity | ].
    exact (Var_set_same call this o v w w Hthis Hsame).
  - eexists. split; [ reflexivity | ].
    set (w1 := with_invalidated _ _).
    assert (vars w1 !! this = Some (set_curValue v o)) as Hthis1
      by (simpl; apply lookup_insert_eq).
    apply (Var_set_same call this _ v w1 w1 Hthis1).
    rewrite same_as_last_time_default by (simpl; assumption). simpl.
    rewrite Hvv. reflexivity.
Qed.

Lemma set_twice_is_set_once_witness :
  exists w1,
    Var_set sample_call 0 (VNumber 2) (world_with_reader (VNumber 1) VUndefined)
      = (Normal tt, w1) /\
    Var_set sample_call 0 (VNumber 2) w1 = (Normal tt, w1).
Proof.
  apply (set_twice_is_set_once sample_call 0
           (mkVar VUndefined (VNumber 1) true 0 None) (VNumber 2)
           (world_with_reader (VNumber 1) VUndefined)); reflexivity.
Defined.

(** X6.  The field [equalsFunc] is tested for truthiness only, line 150:
    on an initialized cell whose [equalsFunc] is truthy and not a
    function, every [set] throws the [TypeError] of the call and changes
    nothing. *)
Theorem set_with_uncallable_equals_throws
    (call : FunId -> list Value -> M Value) this o v w :
  vars w !! this = Some o ->
  inited o = true ->
  ToBoolean (equalsFunc o) = true ->
  is_function (equalsFunc o) = false ->
  Var_set call this v w = (Throw (ErrorObject "TypeError" "not a function"), w).
Proof.
  intros Hthis Hi He Hf.
  apply (Var_set_throws call this o v w _ w Hthis).
  unfold same_as_last_time. rewrite Hi, He.
  destruct (equalsFunc o); try discriminate; reflexivity.
Qed.

(** [new Blaze.Var(1, "===")] is a cell on which no [set] succeeds. *)
Lemma set_with_uncallable_equals_throws_witness :
  let w := world_with_reader (VNumber 1) (VString "===") in
  Var_set sample_call 0 (VNumber 2) w
    = (Throw (ErrorObject "TypeError" "not a function"), w).
Proof.
  apply (set_with_uncallable_equals_throws sample_call 0
           (mkVar (VString "===") (VNumber 1) true 0 None) (VNumber 2)
           (world_with_reader (VNumber 1) (VString "==="))); reflexivity.
Defined.

(** ** Further properties of the computation of a cell *)

(** X7.  A run of the computation of an initialized cell without an
    equality function, in which the initializer returns [v]: when [v] is
    [===] to the stored value the run changes nothing beyond what the
    initializer did, and no reader of the cell is invalidated; otherwise
    the cell holds [v] and every reader of the cell is invalidated.
    Either way the run ends normally, with the current computation and
    the controller it started from. *)
Theorem rerun_invalidates_on_change_only
    (call : FunId -> list Value -> M Value)
    c p self initializer controller wr v w2 o :
  Call call initializer [] (installed c controller wr) = (Normal v, w2) ->
  vars w2 !! self = Some o ->
  inited o = true ->
  ToBoolean (equalsFunc o) = false ->
  let k := mkComputation p (VarAutorun self initializer controller) in
  if strict_equals v (curValue o)
  then Deps_run call c k wr = (Normal tt, restored wr w2)
  else exists w3,
         Deps_run call c k wr = (Normal tt, restored wr w3) /\
         vars (restored wr w3) !! self = Some (set_curValue v o) /\
         dependents (dep o) w2 ⊆ invalidated (restored wr w3).
Proof.
  intros Hcall Hself Hi He k. unfold k.
  rewrite Deps_run_VarAutorun, Hcall.
  pose proof (same_as_last_time_default call o v w2 Hi He) as Hsame.
  rewrite (Var_set_outcome call self o v w2 _ w2 o Hself Hsame Hself).
  destruct (strict_equals v (curValue o)).
  - reflexivity.
  - eexists. split; [ reflexivity | ].
    split; [ simpl; apply lookup_insert_eq | ].
    simpl. apply union_subseteq_l.
Qed.

(** The cell 0 holds [x]; the cell 1 holds 1, is computed from the cell 0
    by function 1 in the computation 6, and is read by the computation
    5. *)
Definition world_with_computed_cell (x : Value) : World :=
  mkWorld {[0 := mkVar VUndefined x true 0 None;
            1 := mkVar VUndefined (VNumber 1) true 1 (Some 6)]}
          ∅
          {[0 := ∅; 1 := {[5]}]}
          {[5 := mkComputation None (UserFunction (VFunction 4));
            6 := mkComputation (Some 5) (VarAutorun 1 (VFunction 1) VNull)]}
          ∅ {[6]} None VUndefined.

(** While the cell 0 holds 1 a run of the computation 6 leaves the cell 1
    and its reader alone; once the cell 0 holds 2 a run stores 2 and
    invalidates the reader. *)
Lemma rerun_invalidates_on_change_only_witness :
  (let wr := world_with_computed_cell (VNumber 1) in
   let k := mkComputation (Some 5) (VarAutorun 1 (VFunction 1) VNull) in
   Deps_run sample_call 6 k wr
     = (Normal tt, restored wr (snd (sample_call 1 [] (installed 6 VNull wr))))) /\
  (let wr := world_with_computed_cell (VNumber 2) in
   let k := mkComputation (Some 5) (VarAutorun 1 (VFunction 1) VNull) in
   exists w3,
     Deps_run sample_call 6 k wr = (Normal tt, restored wr w3) /\
     vars (restored wr w3) !! 1 = Some (mkVar VUndefined (VNumber 2) true 1 (Some 6)) /\
     dependents 1 (snd (sample_call 1 [] (installed 6 VNull wr)))
       ⊆ invalidated (restored wr w3)).
Proof.
  split.
  - apply (rerun_invalidates_on_change_only sample_call 6 (Some 5) 1
             (VFunction 1) VNull (world_with_computed_cell (VNumber 1))
             (VNumber 1) _
             (mkVar VUndefined (VNumber 1) true 1 (Some 6))); reflexivity.
  - apply (rerun_invalidates_on_change_only sample_call 6 (Some 5) 1
             (VFunction 1) VNull (world_with_computed_cell (VNumber 2))
             (VNumber 2) _
             (mkVar VUndefined (VNumber 1) true 1 (Some 6))); reflexivity.
Defined.

(** ** Further properties of the constructor *)

(** X8.  [new Blaze.Var(f, equalsFunc)] inside the computation [p], when
    the first call of [f] returns [v] and leaves the object under
    construction as it was (it has no reference to it): the constructor
    returns the new cell, which holds [v], is initialized and has the new
    computation in its field [computation].  On this first run [v] is
    stored without a comparison, whatever [equalsFunc] is.  The new
    computation is wrapped, and the current computation and the
    controller are those of before the construction. *)
Theorem new_Var_of_function_holds_first_result
    (call : FunId -> list Value -> M Value) f equalsFunc w p v w2 :
  currentComputation w = Some p ->
  let self := fresh (dom (vars w)) in
  let c := fresh (dom (computations w)) in
  let d := fresh (dom (dependencies w)) in
  let k := mkComputation (Some p)
             (VarAutorun self (VFunction f) (currentController w)) in
  call f [] (installed c (currentController w)
               (with_computations <[c := k]> (fields_assigned self equalsFunc w)))
    = (Normal v, w2) ->
  vars w2 !! self = Some (mkVar equalsFunc VNull false d None) ->
  exists w3,
    new_Blaze_Var call (VFunction f) equalsFunc w = (Normal (VVar self), w3) /\
    vars w3 !! self = Some (mkVar equalsFunc v true d (Some c)) /\
    c ∈ wrapped w3 /\
    currentComputation w3 = Some p /\
    currentController w3 = currentController w.
Proof.
  intros Hp self c d k Hcall Hself.
  unfold new_Blaze_Var. js_unfold. simpl. fold self.
  rewrite Var_init_assigns_fields. simpl.
  unfold Deps_active, Deps_autorun. js_unfold. simpl. rewrite !Hp. simpl.
  rewrite ?Hp. fold c.
  rewrite Deps_run_VarAutorun. unfold Call. fold k.
  rewrite Hcall.
  rewrite (Var_set_differs call self _ v w2 w2 _ Hself
             (same_as_last_time_uninitialized call
                (mkVar equalsFunc VNull false d None) v w2 eq_refl) Hself).
  simpl. rewrite !lookup_insert_eq. simpl. rewrite !lookup_insert_eq. simpl.
  eexists. split; [ reflexivity | ].
  split; [ simpl; rewrite lookup_insert_eq; reflexivity | ].
  split; [ simpl; apply elem_of_union_l, elem_of_singleton; reflexivity | ].
  split; [ exact Hp | reflexivity ].
Qed.

Lemma new_Var_of_function_holds_first_result_witness :
  let w := world_inside_reader (VNumber 1) VUndefined (VString "ctl") in
  exists w3,
    new_Blaze_Var sample_call (VFunction 1) (VFunction 2) w
      = (Normal (VVar 1), w3) /\
    vars w3 !! 1 = Some (mkVar (VFunction 2) (VNumber 1) true 1 (Some 6)) /\
    6 ∈ wrapped w3 /\
    currentComputation w3 = Some 5 /\
    currentController w3 = VString "ctl".
Proof.
  apply (new_Var_of_function_holds_first_result sample_call 1 (VFunction 2)
           (world_inside_reader (VNumber 1) VUndefined (VString "ctl")) 5
           (VNumber 1)
           (snd (sample_call 1 []
                   (installed 6 (VString "ctl")
                      (with_computations
                         <[6 := mkComputation (Some 5)
                                  (VarAutorun 1 (VFunction 1) (VString "ctl"))]>
                         (fields_assigned 1 (VFunction 2)
                            (world_inside_reader (VNumber 1) VUndefined
                               (VString "ctl"))))))));
    reflexivity.
Defined.

(** An object of the heap of cells is an instance of [Blaze.Var]. *)
Lemma instanceof_existing_cell l o w :
  vars w !! l = Some o -> instanceof_Blaze_Var (VVar l) w = Some l.
Proof.
  intros Hl. unfold instanceof_Blaze_Var.
  rewrite bool_decide_eq_true_2; [ reflexivity | ].
  apply elem_of_dom. eauto.
Qed.

(** X9.  The test of line 99 lets a call with an existing cell as [this]
    through, as in [Blaze.Var.call(cell, v0, equalsFunc)]: for a [v0] that
    is not a function the call returns [undefined] and initializes the
    cell again in place.  The cell holds [v0] and [equalsFunc], has no
    computation, and owns a new dependency without readers; its former
    readers are not invalidated and remain in the registry of the former
    dependency, which the cell no longer uses. *)
Theorem Var_on_a_cell_initializes_it_again
    (call : FunId -> list Value -> M Value) l o v0 equalsFunc w :
  vars w !! l = Some o ->
  is_function v0 = false ->
  dep o ∈ dom (dependencies w) ->
  let d := fresh (dom (dependencies w)) in
  let w1 := constructed l equalsFunc v0 None w in
  Blaze_Var call (VVar l) v0 equalsFunc w = (Normal VUndefined, w1) /\
  vars w1 !! l = Some (mkVar equalsFunc v0 true d None) /\
  d ≠ dep o /\
  dependents d w1 = ∅ /\
  dependents (dep o) w1 = dependents (dep o) w /\
  invalidated w1 = invalidated w.
Proof.
  intros Hl Hv Hdep d w1.
  assert (d ≠ dep o) as Hd
    by (intros Heq; apply (is_fresh (dom (dependencies w))); fold d; rewrite Heq; exact Hdep).
  split.
  { unfold Blaze_Var. js_unfold.
    rewrite (instanceof_existing_cell l o w Hl).
    rewrite (Var_init_of_value call l v0 equalsFunc w Hv). reflexivity. }
  split; [ simpl; apply lookup_insert_eq | ].
  split; [ exact Hd | ].
  split; [ unfold dependents; simpl; rewrite lookup_insert_eq; reflexivity | ].
  split; [ | reflexivity ].
  unfold dependents. simpl. rewrite lookup_insert_ne by exact Hd. reflexivity.
Qed.

(** The cell 0 holds 1 and is read by the computation 5; initialized
    again with 2, it has the dependency 1, and 5 is a reader of the
    dependency 0 still. *)
Lemma Var_on_a_cell_initializes_it_again_witness :
  let w := world_with_reader (VNumber 1) VUndefined in
  let w1 := constructed 0 VUndefined (VNumber 2) None w in
  Blaze_Var sample_call (VVar 0) (VNumber 2) VUndefined w = (Normal VUndefined, w1) /\
  vars w1 !! 0 = Some (mkVar VUndefined (VNumber 2) true 1 None) /\
  1 ≠ 0 /\
  dependents 1 w1 = ∅ /\
  dependents 0 w1 = dependents 0 w /\
  invalidated w1 = invalidated w.
Proof.
  apply (Var_on_a_cell_initializes_it_again sample_call 0
           (mkVar VUndefined (VNumber 1) true 0 None) (VNumber 2) VUndefined
           (world_with_reader (VNumber 1) VUndefined)).
  - reflexivity.
  - reflexivity.
  - apply elem_of_dom. exists {[5]}. reflexivity.
Defined.



(** ** A further property of [toString] *)

(** A conversion of objects that throws, as for an object whose
    [toString] does. *)
Definition throwing_ObjectToString (v : Value) : M string :=
  throw (ErrorObject "TypeError" "Cannot convert object to primitive value").

(** X11.  When the conversion of the stored value to a string throws,
    [toString()] throws the same, and the [get()] it made before has
    taken place: inside a computation the computation is a reader of the
    cell all the same. *)
Theorem toString_propagates_conversion_exception
    (NumberToString : float -> string) (ObjectToString : Value -> M string)
    w this o e w2 :
  vars w !! this = Some o ->
  ToString NumberToString ObjectToString (curValue o) (snd (Var_get this w))
    = (Throw e, w2) ->
  Var_toString NumberToString ObjectToString this w = (Throw e, w2) /\
  (forall c, currentComputation w = Some c ->
             c ∈ dependents (dep o) (snd (Var_get this w))).
Proof.
  intros Hthis Hs.
  destruct (currentComputation w) as [c|] eqn:Hc.
  - rewrite (Var_get_tracked w this o c Hthis Hc) in *. simpl in *.
    split.
    + unfold Var_toString. js_unfold.
      rewrite (Var_get_tracked w this o c Hthis Hc), Hs. reflexivity.
    + intros c' [= <-]. unfold dependents. simpl. rewrite lookup_insert_eq. simpl.
      apply elem_of_union_l, elem_of_singleton. reflexivity.
  - rewrite (Var_get_untracked w this o Hthis Hc) in *. simpl in *.
    split; [ | discriminate ].
    unfold Var_toString. js_unfold.
    rewrite (Var_get_untracked w this o Hthis Hc), Hs. reflexivity.
Qed.

Lemma toString_propagates_conversion_exception_witness :
  let w := with_dependencies <[0 := ∅]>
             (world_inside_reader (VObject 0) VUndefined VNull) in
  Var_toString sample_NumberToString throwing_ObjectToString 0 w
    = (Throw (ErrorObject "TypeError" "Cannot convert object to primitive value"),
       snd (Var_get 0 w)) /\
  (forall c, Some 5 = Some c -> c ∈ dependents 0 (snd (Var_get 0 w))).
Proof.
  apply (toString_propagates_conversion_exception
           sample_NumberToString throwing_ObjectToString
           (with_dependencies <[0 := ∅]>
              (world_inside_reader (VObject 0) VUndefined VNull))
           0 (mkVar VUndefined (VObject 0) true 0 None));
    reflexivity.
Defined.
